(** * wise-paper-api: request validation, prompt assembly and error translation

    A shallow embedding of [main.py]: the seven pydantic request models, the
    seven prompt-building handlers, the two informational endpoints and
    [call_claude], the single function that talks to the model provider.

    Conventions.
    - Python [str] values are [string]s holding the UTF-8 bytes of the text.
    - A parsed JSON body is a [json] value; a JSON object is an association
      list read with [dict_get] (first binding of a key).
    - The provider client is a function from the calls made so far and the
      arguments of the present call to an outcome; every handler runs in a
      state-and-exception monad [M] whose state is that trace of calls. *)

From Stdlib Require Import ZArith QArith List String Ascii Bool DecimalString.
Import ListNotations.
Open Scope list_scope.
Open Scope string_scope.

(** ** Strings *)

Definition dq : string := String "034"%char EmptyString.

(** [str(n)] for a Python [int]. *)
Definition str_of_int (n : Z) : string := NilZero.string_of_int (Z.to_int n).

(** [x in s] on strings, as a proposition and as a test. *)
Definition contains (s sub : string) : Prop :=
  exists pre post, s = pre ++ sub ++ post.

Fixpoint is_substring (sub s : string) : bool :=
  String.prefix sub s ||
  match s with
  | EmptyString => false
  | String _ s' => is_substring sub s'
  end.

(** ** JSON values and pydantic field validation *)

Set Warnings "-register-all".

Inductive json : Type :=
| JNull
| JBool (b : bool)
| JInt (n : Z)
| JReal (q : Q)
| JStr (s : string)
| JList (l : list json)
| JObj (members : list (string * json)).

Definition dict := list (string * json).

Fixpoint dict_get (key : string) (d : dict) : option json :=
  match d with
  | [] => None
  | (k, v) :: d' => if String.eqb key k then Some v else dict_get key d'
  end.

Fixpoint dict_del (key : string) (d : dict) : dict :=
  match d with
  | [] => []
  | (k, v) :: d' =>
      if String.eqb key k then dict_del key d' else (k, v) :: dict_del key d'
  end.

(** What pydantic accepts for a field annotated [str] and for one annotated
    [int] differs between its releases (whether a number is turned into a
    string, whether a numeric string or a float is turned into an integer).
    The development is therefore stated over any pair of coercions under
    which a JSON string is a [str] and a JSON integer is an [int]. *)
Class Coercion : Type := {
  coerce_str : json -> option string;
  coerce_int : json -> option Z;
  coerce_str_JStr : forall s, coerce_str (JStr s) = Some s;
  coerce_int_JInt : forall n, coerce_int (JInt n) = Some n
}.

Inductive error_kind := Missing | WrongType.

Record verror := { loc : string; kind : error_kind }.

(** Validation collects the errors of all fields before it fails. *)
Definition validation (A : Type) : Type := (list verror + A)%type.

Definition vap {A B} (f : validation (A -> B)) (x : validation A)
  : validation B :=
  match f, x with
  | inr g, inr a => inr (g a)
  | inl e1, inl e2 => inl (e1 ++ e2)%list
  | inl e1, inr _ => inl e1
  | inr _, inl e2 => inl e2
  end.

Notation "f <*> x" := (vap f x) (at level 50, left associativity).

Section Fields.
Context {C : Coercion}.

(** [name: str] -- no default, so the key must be present. *)
Definition required_str (name : string) (body : dict) : validation string :=
  match dict_get name body with
  | None => inl [{| loc := name; kind := Missing |}]
  | Some v =>
      match coerce_str v with
      | Some s => inr s
      | None => inl [{| loc := name; kind := WrongType |}]
      end
  end.

(** [name: Optional[T] = default] -- an absent key takes the default, an
    explicit [null] is accepted as [None], anything else must coerce. *)
Definition optional {T} (coerce : json -> option T) (name : string)
  (default : T) (body : dict) : validation (option T) :=
  match dict_get name body with
  | None => inr (Some default)
  | Some JNull => inr None
  | Some v =>
      match coerce v with
      | Some x => inr (Some x)
      | None => inl [{| loc := name; kind := WrongType |}]
      end
  end.

Definition optional_str := optional coerce_str.
Definition optional_int := optional coerce_int.

End Fields.

(** ** The request models *)

Module TopicRequest.
Record t := Build {
  topic : string;
  field : option string;
  keywords : option string;
  purpose : option string
}.
Definition validate {C : Coercion} (body : dict) : validation t :=
  inr Build
    <*> required_str "topic" body
    <*> optional_str "field" EmptyString body
    <*> optional_str "keywords" EmptyString body
    <*> optional_str "purpose" EmptyString body.
End TopicRequest.

Module LitReviewRequest.
Record t := Build {
  topic : string;
  field : option string;
  keywords : option string;
  scope : option string;
  known_papers : option string
}.
Definition validate {C : Coercion} (body : dict) : validation t :=
  inr Build
    <*> required_str "topic" body
    <*> optional_str "field" EmptyString body
    <*> optional_str "keywords" EmptyString body
    <*> optional_str "scope" "최근 5년" body
    <*> optional_str "known_papers" EmptyString body.
End LitReviewRequest.

Module StructureRequest.
Record t := Build {
  topic : string;
  field : option string;
  keywords : option string;
  paper_type : option string;
  methodology : option string
}.
Definition validate {C : Coercion} (body : dict) : validation t :=
  inr Build
    <*> required_str "topic" body
    <*> optional_str "field" EmptyString body
    <*> optional_str "keywords" EmptyString body
    <*> optional_str "paper_type" "원저" body
    <*> optional_str "methodology" EmptyString body.
End StructureRequest.

Module IntroRequest.
Record t := Build {
  topic : string;
  field : option string;
  keywords : option string;
  language : option string
}.
Definition validate {C : Coercion} (body : dict) : validation t :=
  inr Build
    <*> required_str "topic" body
    <*> optional_str "field" EmptyString body
    <*> optional_str "keywords" EmptyString body
    <*> optional_str "language" "한국어" body.
End IntroRequest.

Module AbstractRequest.
Record t := Build {
  topic : string;
  field : option string;
  keywords : option string;
  word_count : option Z;
  language : option string
}.
Definition validate {C : Coercion} (body : dict) : validation t :=
  inr Build
    <*> required_str "topic" body
    <*> optional_str "field" EmptyString body
    <*> optional_str "keywords" EmptyString body
    <*> optional_int "word_count" 250%Z body
    <*> optional_str "language" "한국어" body.
End AbstractRequest.

Module JournalRequest.
Record t := Build {
  topic : string;
  field : option string;
  keywords : option string;
  index_type : option string
}.
Definition validate {C : Coercion} (body : dict) : validation t :=
  inr Build
    <*> required_str "topic" body
    <*> optional_str "field" EmptyString body
    <*> optional_str "keywords" EmptyString body
    <*> optional_str "index_type" "SCI/SCIE" body.
End JournalRequest.

Module ReviewRequest.
Record t := Build {
  topic : string;
  reviewer_comment : string;
  language : option string
}.
Definition validate {C : Coercion} (body : dict) : validation t :=
  inr Build
    <*> required_str "topic" body
    <*> required_str "reviewer_comment" body
    <*> optional_str "language" "한국어" body.
End ReviewRequest.

(** ** Python expressions used by the templates *)

(** [x or d]: [None] and the empty string are falsy. *)
Definition py_or (x : option string) (d : string) : string :=
  match x with
  | Some (String _ _ as s) => s
  | _ => d
  end.

(** [f"{x}"] for [x : Optional[str]] and for [x : Optional[int]]. *)
Definition fmt_str (x : option string) : string :=
  match x with
  | Some s => s
  | None => "None"
  end.

Definition fmt_int (x : option Z) : string :=
  match x with
  | Some n => str_of_int n
  | None => "None"
  end.

(** ** Exceptions, the provider client and the handler monad *)

(** The exceptions of the model are instances of Python's [Exception]: the
    errors of the provider's client library, the two errors that reading
    [message.content[0].text] can raise, and the framework's
    [HTTPException]. Each carries what [str] prints. *)
Inductive exception : Type :=
| AuthenticationError (msg : string)
| RateLimitError (msg : string)
| IndexError (msg : string)
| AttributeError (msg : string)
| HTTPException (status_code : Z) (detail : string)
| OtherException (msg : string).

(** [str(e)]. *)
Definition str (e : exception) : string :=
  match e with
  | AuthenticationError msg | RateLimitError msg | IndexError msg
  | AttributeError msg | OtherException msg => msg
  | HTTPException status_code detail =>
      str_of_int status_code ++ ": " ++ detail
  end.

Record create_args := {
  model : string;
  max_tokens : Z;
  system : string;
  messages : list (string * string)
}.

(** A block of the provider's answer: a text block has a [text] attribute,
    a block of another class (named by [cls]) has none. *)
Inductive ContentBlock : Type :=
| TextBlock (text : string)
| OtherBlock (cls : string).

Record Message := { content : list ContentBlock }.

Inductive outcome : Type :=
| Returns (message : Message)
| Raises (e : exception).

Definition trace := list create_args.

(** The client's behaviour: it may answer a call differently according to
    the calls it has already received. *)
Definition provider := trace -> create_args -> outcome.

Definition M (A : Type) : Type := trace -> (exception + A) * trace.

Definition ret {A} (a : A) : M A := fun log => (inr a, log).

Definition raise {A} (e : exception) : M A := fun log => (inl e, log).

Definition bind {A B} (m : M A) (k : A -> M B) : M B :=
  fun log =>
    match m log with
    | (inr a, log') => k a log'
    | (inl e, log') => (inl e, log')
    end.

Definition try_except {A} (m : M A) (handler : exception -> M A) : M A :=
  fun log =>
    match m log with
    | (inr a, log') => (inr a, log')
    | (inl e, log') => handler e log'
    end.

Notation "x <- m ;; k" := (bind m (fun x => k))
  (at level 61, m at next level, right associativity).

(** [client.messages.create(...)]: one call, recorded in the trace. *)
Definition messages_create (client : provider) (args : create_args)
  : M Message :=
  fun log =>
    (match client log args with
     | Returns message => inr message
     | Raises e => inl e
     end, (log ++ [args])%list).

(** [l[0]]. *)
Definition getitem0 {A} (l : list A) : M A :=
  match l with
  | x :: _ => ret x
  | [] => raise (IndexError "list index out of range")
  end.

(** [block.text]. *)
Definition get_text (block : ContentBlock) : M string :=
  match block with
  | TextBlock text => ret text
  | OtherBlock cls =>
      raise (AttributeError ("'" ++ cls ++ "' object has no attribute 'text'"))
  end.

Definition SYSTEM_PROMPT : string :=
"당신은 N2B(Not-But-Because) 프레임워크 기반 논문 작성 전문 AI입니다.

## N2B 프레임워크란?
- Not: 현재 Best Practice(BP)의 빈틈, 한계, 미해결 문제
- But: 그럼에도 불구하고 가능한 새로운 접근, 기회
- Because: 그래서 이 연구가 필요한 이유, 근거

## 빅매치 메이커 철학
논문 작성자는 빅매치 메이커입니다:
1. 빅매치를 만들어라 (서론) — 현재 챔피언(BP)과 도전자(내 연구)의 대결 구도
2. 시합을 시켜라 (본론) — 공정한 조건에서 실제로 붙여봄
3. 결과를 발표하라 (결론) — 모두가 궁금해하는 그 결과

## 핵심 원칙
- 대립하는 이름 두 개가 붙어야 빅매치가 성립 (예: " ++ dq ++ "사후탐지형" ++ dq ++ " vs " ++ dq ++ "사전예측형" ++ dq ++ ")
- 빈틈만 있으면 불만이고, 이름이 붙으면 연구 주제가 됨
- BP의 계보를 추적하면 연구의 맥락이 보임 (1세대→2세대→3세대→...)
- 항상 구체적이고 실제적인 내용으로 분석할 것
- 최신 연구 트렌드를 반영할 것

## 응답 형식
- 구조화된 텍스트로 응답 (마크다운 대신 텍스트 기호 사용)
- 이모지를 적절히 활용
- 한국어로 응답 (영어 요청 시 영어)
".

Definition request_args (prompt : string) : create_args :=
  {| model := "claude-sonnet-4-20250514";
     max_tokens := 4000%Z;
     system := SYSTEM_PROMPT;
     messages := [("user", prompt)] |}.

Definition ok_result (result : string) : json :=
  JObj [("status", JStr "ok"); ("result", JStr result)].

Definition call_claude (client : provider) (prompt : string) : M json :=
  try_except
    (message <- messages_create client (request_args prompt) ;;
     block <- getitem0 (content message) ;;
     result <- get_text block ;;
     ret (ok_result result))
    (fun e =>
       match e with
       | AuthenticationError _ =>
           raise (HTTPException 401 "API 키가 유효하지 않습니다")
       | RateLimitError _ =>
           raise (HTTPException 429
                    "API 호출 한도 초과. 잠시 후 다시 시도해주세요")
       | _ =>
           raise (HTTPException 500 ("AI 분석 중 오류: " ++ str e))
       end).

(** ** The prompt endpoints *)

(** Stage 0: 연구 주제 N2B 분석 *)
Definition analyze_topic_prompt (req : TopicRequest.t) : string :=
"다음 연구 주제를 N2B 프레임워크로 분석해주세요.

연구 주제: " ++ TopicRequest.topic req ++ "
분야: " ++ py_or (TopicRequest.field req) "미지정" ++ "
키워드: " ++ py_or (TopicRequest.keywords req) "미지정" ++ "
연구 목적: " ++ py_or (TopicRequest.purpose req) "미지정" ++ "

다음 구조로 분석해주세요:

1. 현재 Best Practice (BP) 3가지 — 이 분야에서 현재 가장 잘 되고 있는 것
2. N2B 구조 분석:
   - Not (현재 BP의 빈틈 5가지) — 구체적 문헌 인용 포함
   - But (그럼에도 불구하고 가능한 새 접근)
   - Because (그래서 이 연구가 필요한 이유, 4가지 방향 제시)
3. 논문화 가능성 (참신성/실현성/기여도/시의성 각 별점)
4. 추천 빅매치 구도 3가지 — 반드시 대립하는 이름 쌍으로 (예: " ++ dq ++ "OO형" ++ dq ++ " vs " ++ dq ++ "XX형" ++ dq ++ ")
5. 다음 단계 안내

텍스트 기호(━, ❌, ⚡, ✅, 🏆, 🥊, ✦, 💡)를 활용하여 구조화해주세요.".

Definition analyze_topic (client : provider) (req : TopicRequest.t) : M json :=
  let prompt := analyze_topic_prompt req in
  call_claude client prompt.

(** Stage 1: N2B 문헌리뷰 맵 *)
Definition literature_review_prompt (req : LitReviewRequest.t) : string :=
"다음 연구 주제에 대한 N2B 문헌리뷰 맵을 만들어주세요.

연구 주제: " ++ LitReviewRequest.topic req ++ "
분야: " ++ py_or (LitReviewRequest.field req) "미지정" ++ "
키워드: " ++ py_or (LitReviewRequest.keywords req) "미지정" ++ "
검색 범위: " ++ fmt_str (LitReviewRequest.scope req) ++ "
연구자 지정 논문: " ++ py_or (LitReviewRequest.known_papers req) "없음" ++ "

다음 구조로 작성해주세요:

1. N2B 계보 (세대별 진화):
   - 1세대 (초기 접근): 성과 → Not(빈틈) → 대표문헌
   - 2세대 (방법론 발전): 성과 → Not(빈틈) → 대표문헌
   - 3세대 (현재 BP): 성과 → Not(빈틈) → 대표문헌
   - 4세대 (연구 기회): 가능성 → Not(미개척) → ⭐ 연구 기회!

2. 핵심 선행연구 분류 (분야별로 실제 저자명과 연도 포함)

3. 연구 갭 요약 — 핵심 빈틈 한 문장

각 세대 사이에 " ++ dq ++ "↓ 빈틈이 동기가 되어..." ++ dq ++ " 화살표로 연결해주세요.".

Definition literature_review (client : provider) (req : LitReviewRequest.t) : M json :=
  let prompt := literature_review_prompt req in
  call_claude client prompt.

(** Stage 2: 논문 구조 설계 *)
Definition paper_structure_prompt (req : StructureRequest.t) : string :=
"다음 연구 주제에 대한 N2B 기반 논문 구조를 설계해주세요.

연구 주제: " ++ StructureRequest.topic req ++ "
분야: " ++ py_or (StructureRequest.field req) "미지정" ++ "
키워드: " ++ py_or (StructureRequest.keywords req) "미지정" ++ "
논문 유형: " ++ fmt_str (StructureRequest.paper_type req) ++ "
방법론: " ++ py_or (StructureRequest.methodology req) "미지정" ++ "

다음 구조로 설계해주세요:

1. 논문 제목 (한국어 + 영어) — 3가지 후보
2. 전체 구조 (N2B 매핑):
   - 서론 (Not 영역): 배경 → 문제 제기 → 연구 목적
   - 이론적 배경/문헌리뷰: BP 계보
   - 연구 방법 (But 영역): 제안하는 방법론
   - 결과 및 분석: 빅매치 시합 결과
   - 고찰 (Because 영역): 의미와 기여
   - 결론
3. 각 장의 예상 분량 (페이지 수)
4. 핵심 Figure/Table 제안
5. 빅매치 구도 확인".

Definition paper_structure (client : provider) (req : StructureRequest.t) : M json :=
  let prompt := paper_structure_prompt req in
  call_claude client prompt.

(** Stage 3: 서론 작성 *)
Definition write_introduction_prompt (req : IntroRequest.t) : string :=
"다음 연구 주제에 대한 N2B 기반 서론 초안을 작성해주세요.

연구 주제: " ++ IntroRequest.topic req ++ "
분야: " ++ py_or (IntroRequest.field req) "미지정" ++ "
키워드: " ++ py_or (IntroRequest.keywords req) "미지정" ++ "
언어: " ++ fmt_str (IntroRequest.language req) ++ "

N2B 4단락 구조로 서론을 작성해주세요:

¶1-2 (배경 + 문제): 이 분야의 중요성과 현재 BP 소개
¶3 (Not — 빈틈): 기존 접근의 한계와 미해결 문제
¶4 (But/Because — 연구 목적): 본 연구의 접근 방식과 필요성

각 단락에 [N2B 구조 표시]를 포함하고, 참고문헌 위치를 (Author, Year) 형식으로 표시해주세요.
서론 뒤에 " ++ dq ++ "N2B 흐름 분석" ++ dq ++ "도 추가해주세요.".

Definition write_introduction (client : provider) (req : IntroRequest.t) : M json :=
  let prompt := write_introduction_prompt req in
  call_claude client prompt.

(** Stage 4: 초록 생성 *)
Definition generate_abstract_prompt (req : AbstractRequest.t) : string :=
"다음 연구 주제에 대한 N2B 기반 초록을 작성해주세요.

연구 주제: " ++ AbstractRequest.topic req ++ "
분야: " ++ py_or (AbstractRequest.field req) "미지정" ++ "
키워드: " ++ py_or (AbstractRequest.keywords req) "미지정" ++ "
목표 단어 수: " ++ fmt_int (AbstractRequest.word_count req) ++ "단어
언어: " ++ fmt_str (AbstractRequest.language req) ++ "

N2B 초록 구조:
- 문장 1-2 (배경+문제): Not — 현재 상황의 빈틈
- 문장 3-5 (방법+결과): But — 본 연구의 접근과 주요 결과
- 문장 6-7 (의의): Because — 이 연구가 중요한 이유

초록 뒤에 추천 키워드 5개도 제시해주세요.".

Definition generate_abstract (client : provider) (req : AbstractRequest.t) : M json :=
  let prompt := generate_abstract_prompt req in
  call_claude client prompt.

(** Stage 5: 저널 매칭 *)
Definition match_journal_prompt (req : JournalRequest.t) : string :=
"다음 연구 주제에 적합한 학술지를 추천해주세요.

연구 주제: " ++ JournalRequest.topic req ++ "
분야: " ++ py_or (JournalRequest.field req) "미지정" ++ "
키워드: " ++ py_or (JournalRequest.keywords req) "미지정" ++ "
희망 인덱스: " ++ fmt_str (JournalRequest.index_type req) ++ "

각 저널에 대해:
1. 저널명 (약칭)
2. 출판사
3. Impact Factor (최근)
4. 인덱스 (SCI/SCIE/SCOPUS/KCI)
5. 평균 심사 기간
6. 수락율 (추정)
7. 이 주제와의 적합도 (★ 표시)
8. 추천 이유

최소 5개 저널을 추천하되, 국제 저널과 국내 저널을 섞어주세요.
난이도 순서대로 (도전적 → 현실적 → 안전) 정렬해주세요.".

Definition match_journal (client : provider) (req : JournalRequest.t) : M json :=
  let prompt := match_journal_prompt req in
  call_claude client prompt.

(** Stage 6: 심사 대응 *)
Definition review_response_prompt (req : ReviewRequest.t) : string :=
"다음 심사 의견에 대한 N2B 기반 답변을 작성해주세요.

연구 주제: " ++ ReviewRequest.topic req ++ "
심사 의견: " ++ ReviewRequest.reviewer_comment req ++ "
언어: " ++ fmt_str (ReviewRequest.language req) ++ "

N2B 답변 구조:
1. Not (심사위원 지적 요약): 정확히 무엇을 지적했는가
2. But (수용/반박): 타당한 부분은 수용, 오해는 근거로 반박
3. Because (수정/보완 근거): 왜 이렇게 수정했는가 / 왜 원래가 맞는가

다음 형식으로 작성:
- Response to Reviewer: 답변 (공손하되 논리적으로)
- Action Taken: 수정 내용 (구체적으로)
- Revised Manuscript: 수정된 부분 표시

심사위원을 존중하면서도 연구의 가치를 지키는 균형 잡힌 답변을 작성해주세요.".

Definition review_response (client : provider) (req : ReviewRequest.t) : M json :=
  let prompt := review_response_prompt req in
  call_claude client prompt.

(** ** The application *)

(** [GET /] and [GET /health]. *)
Definition root : json :=
  JObj [("service", JStr "슬기로운 논문생활 API");
        ("status", JStr "running");
        ("version", JStr "1.0")].

Definition health : json := JObj [("status", JStr "ok")].

Inductive response_body : Type :=
| JSONBody (j : json)
| TextBody (s : string).

Record http_response := { code : Z; payload : response_body }.

Definition json_response (status_code : Z) (j : json) : http_response :=
  {| code := status_code; payload := JSONBody j |}.

Definition error_json (e : verror) : json :=
  JObj [("loc", JList [JStr "body"; JStr (loc e)]);
        ("type", JStr match kind e with
                      | Missing => "missing"
                      | WrongType => "type_error"
                      end)].

(** The framework's answer to a body that fails validation. *)
Definition validation_error_response (errs : list verror) : http_response :=
  json_response 422 (JObj [("detail", JList (map error_json errs))]).

(** The framework's treatment of what a handler returns or raises. *)
Definition respond (m : M json) : trace -> http_response * trace :=
  fun log =>
    match m log with
    | (inr v, log') => (json_response 200 v, log')
    | (inl (HTTPException status_code detail), log') =>
        (json_response status_code (JObj [("detail", JStr detail)]), log')
    | (inl _, log') =>
        ({| code := 500; payload := TextBody "Internal Server Error" |}, log')
    end.

(** The body is validated first; the handler runs only on a valid model. *)
Definition with_model {R} (v : validation R) (handler : R -> M json)
  : trace -> http_response * trace :=
  match v with
  | inl errs => fun log => (validation_error_response errs, log)
  | inr req => respond (handler req)
  end.

Inductive endpoint : Type :=
| Topic | Literature | Structure | Introduction | Abstract | Journal
| ReviewResponse.

Definition post {C : Coercion} (client : provider) (e : endpoint)
  (body : json) : trace -> http_response * trace :=
  match body with
  | JObj d =>
      match e with
      | Topic => with_model (TopicRequest.validate d) (analyze_topic client)
      | Literature =>
          with_model (LitReviewRequest.validate d) (literature_review client)
      | Structure =>
          with_model (StructureRequest.validate d) (paper_structure client)
      | Introduction =>
          with_model (IntroRequest.validate d) (write_introduction client)
      | Abstract =>
          with_model (AbstractRequest.validate d) (generate_abstract client)
      | Journal =>
          with_model (JournalRequest.validate d) (match_journal client)
      | ReviewResponse =>
          with_model (ReviewRequest.validate d) (review_response client)
      end
  | _ =>
      fun log =>
        (validation_error_response [{| loc := EmptyString; kind := WrongType |}],
         log)
  end.

Inductive method := GET | POST.

Definition method_eqb (a b : method) : bool :=
  match a, b with
  | GET, GET | POST, POST => true
  | _, _ => false
  end.

Inductive view : Type :=
| Static (j : json)
| Prompt (e : endpoint).

(** The routes, in the order the decorators register them. *)
Definition routes : list (method * string * view) :=
  [ (GET, "/", Static root);
    (GET, "/health", Static health);
    (POST, "/api/topic", Prompt Topic);
    (POST, "/api/literature", Prompt Literature);
    (POST, "/api/structure", Prompt Structure);
    (POST, "/api/introduction", Prompt Introduction);
    (POST, "/api/abstract", Prompt Abstract);
    (POST, "/api/journal", Prompt Journal);
    (POST, "/api/review-response", Prompt ReviewResponse) ].

Record http_request := { meth : method; path : string; body : json }.

Definition app {C : Coercion} (client : provider) (r : http_request)
  : trace -> http_response * trace :=
  match find (fun rt => String.eqb (path r) (snd (fst rt))) routes with
  | None =>
      fun log => (json_response 404 (JObj [("detail", JStr "Not Found")]), log)
  | Some (m, _, v) =>
      if method_eqb (meth r) m then
        match v with
        | Static j => fun log => (json_response 200 j, log)
        | Prompt e => post client e (body r)
        end
      else
        fun log =>
          (json_response 405 (JObj [("detail", JStr "Method Not Allowed")]),
           log)
  end.

(** ** Vocabulary of the statements *)

Definition path_of (e : endpoint) : string :=
  match e with
  | Topic => "/api/topic"
  | Literature => "/api/literature"
  | Structure => "/api/structure"
  | Introduction => "/api/introduction"
  | Abstract => "/api/abstract"
  | Journal => "/api/journal"
  | ReviewResponse => "/api/review-response"
  end.

Definition post_request (e : endpoint) (d : dict) : http_request :=
  {| meth := POST; path := path_of e; body := JObj d |}.

Definition vmap {A B} (f : A -> B) (v : validation A) : validation B :=
  match v with
  | inl errs => inl errs
  | inr a => inr (f a)
  end.

(** The prompt an endpoint assembles from a body, when the body is valid. *)
Definition assemble {C : Coercion} (e : endpoint) (d : dict)
  : validation string :=
  match e with
  | Topic => vmap analyze_topic_prompt (TopicRequest.validate d)
  | Literature => vmap literature_review_prompt (LitReviewRequest.validate d)
  | Structure => vmap paper_structure_prompt (StructureRequest.validate d)
  | Introduction => vmap write_introduction_prompt (IntroRequest.validate d)
  | Abstract => vmap generate_abstract_prompt (AbstractRequest.validate d)
  | Journal => vmap match_journal_prompt (JournalRequest.validate d)
  | ReviewResponse => vmap review_response_prompt (ReviewRequest.validate d)
  end.

Definition ok {A} (v : validation A) : Prop := exists a, v = inr a.

(** Validation fails and reports [err] among its errors. *)
Definition fails_with {A} (v : validation A) (err : verror) : Prop :=
  exists errs, v = inl errs /\ In err errs.

Definition accepted {C : Coercion} (e : endpoint) (d : dict) : Prop :=
  ok (assemble e d).

(** The gateway was called exactly once, with [prompt], between two traces. *)
Definition called_once (prompt : string) (before after : trace) : Prop :=
  after = (before ++ [request_args prompt])%list.

(** The fields each model declares without a default. *)
Definition required_fields (e : endpoint) : list string :=
  match e with
  | ReviewResponse => ["topic"; "reviewer_comment"]
  | _ => ["topic"]
  end.

Inductive annotation := OptionalStr | OptionalInt.

(** An optional field as the model and the template of its endpoint present
    it: its annotation, the label that precedes it in the prompt, the text
    the prompt shows when the key is absent, and whether the template guards
    the value with [or]. *)
Record optional_field := {
  name : string;
  ann : annotation;
  label : string;
  placeholder : string;
  guarded : bool
}.

Definition f_field : optional_field :=
  {| name := "field"; ann := OptionalStr; label := "분야: ";
     placeholder := "미지정"; guarded := true |}.
Definition f_keywords : optional_field :=
  {| name := "keywords"; ann := OptionalStr; label := "키워드: ";
     placeholder := "미지정"; guarded := true |}.
Definition f_purpose : optional_field :=
  {| name := "purpose"; ann := OptionalStr; label := "연구 목적: ";
     placeholder := "미지정"; guarded := true |}.
Definition f_scope : optional_field :=
  {| name := "scope"; ann := OptionalStr; label := "검색 범위: ";
     placeholder := "최근 5년"; guarded := false |}.
Definition f_known_papers : optional_field :=
  {| name := "known_papers"; ann := OptionalStr; label := "연구자 지정 논문: ";
     placeholder := "없음"; guarded := true |}.
Definition f_paper_type : optional_field :=
  {| name := "paper_type"; ann := OptionalStr; label := "논문 유형: ";
     placeholder := "원저"; guarded := false |}.
Definition f_methodology : optional_field :=
  {| name := "methodology"; ann := OptionalStr; label := "방법론: ";
     placeholder := "미지정"; guarded := true |}.
Definition f_language : optional_field :=
  {| name := "language"; ann := OptionalStr; label := "언어: ";
     placeholder := "한국어"; guarded := false |}.
Definition f_word_count : optional_field :=
  {| name := "word_count"; ann := OptionalInt; label := "목표 단어 수: ";
     placeholder := "250"; guarded := false |}.
Definition f_index_type : optional_field :=
  {| name := "index_type"; ann := OptionalStr; label := "희망 인덱스: ";
     placeholder := "SCI/SCIE"; guarded := false |}.

Definition optional_fields (e : endpoint) : list optional_field :=
  match e with
  | Topic => [f_field; f_keywords; f_purpose]
  | Literature => [f_field; f_keywords; f_scope; f_known_papers]
  | Structure => [f_field; f_keywords; f_paper_type; f_methodology]
  | Introduction => [f_field; f_keywords; f_language]
  | Abstract => [f_field; f_keywords; f_word_count; f_language]
  | Journal => [f_field; f_keywords; f_index_type]
  | ReviewResponse => [f_language]
  end.

(** Whether a JSON value coerces to the type a field is annotated with. *)
Definition coercible {C : Coercion} (f : optional_field) (v : json) : bool :=
  match ann f with
  | OptionalStr => match coerce_str v with Some _ => true | None => false end
  | OptionalInt => match coerce_int v with Some _ => true | None => false end
  end.

(** A key is required when no body that lacks it is accepted. *)
Definition requires {C : Coercion} (e : endpoint) (key : string) : Prop :=
  forall d, dict_get key d = None -> ~ accepted e d.

(** "Exactly one required field". *)
Definition exactly_one_required {C : Coercion} (e : endpoint) : Prop :=
  exists k, requires e k /\ forall k', requires e k' -> k' = k.

(** The coercions that convert nothing: a [str] field takes a JSON string,
    an [int] field a JSON integer. They are used to run the model on
    concrete bodies made of strings, integers and [null]. *)
#[export] Instance exact : Coercion := {|
  coerce_str := fun v => match v with JStr s => Some s | _ => None end;
  coerce_int := fun v => match v with JInt n => Some n | _ => None end;
  coerce_str_JStr := fun s => eq_refl;
  coerce_int_JInt := fun n => eq_refl
|}.

(** A client that answers every call with the one text block [text]. *)
Definition answering (text : string) : provider :=
  fun _ _ => Returns {| content := [TextBlock text] |}.

(** A client that fails every call with [e]. *)
Definition failing (e : exception) : provider := fun _ _ => Raises e.

(** Whether [s] ends with [suffix]. *)
Fixpoint ends_with (suffix s : string) : bool :=
  String.eqb s suffix ||
  match s with
  | EmptyString => false
  | String _ s' => ends_with suffix s'
  end.

(** What a template writes between the value of a field and the end of
    its line: the unit "단어" after the word count, nothing otherwise. *)
Definition unit_of (f : optional_field) : string :=
  match ann f with
  | OptionalInt => "단어"
  | OptionalStr => EmptyString
  end.

Definition nl : string := String "010"%char EmptyString.

(** The keys a model declares. *)
Definition declared_keys (e : endpoint) : list string :=
  (required_fields e ++ map name (optional_fields e))%list.



(** * Properties *)

(** ** Strings *)

Lemma string_app_assoc (a b c : string) : (a ++ b) ++ c = a ++ (b ++ c).
Proof.
  induction a as [|x a IH]; simpl; [reflexivity | now rewrite IH].
Qed.

Lemma contains_here (sub post : string) : contains (sub ++ post) sub.
Proof. exists EmptyString, post. reflexivity. Qed.

Lemma contains_skip (c : ascii) (s sub : string) :
  contains s sub -> contains (String c s) sub.
Proof.
  intros (pre & post & ->). exists (String c pre), post. reflexivity.
Qed.

Lemma contains_app_r (v s sub : string) :
  contains s sub -> contains (v ++ s) sub.
Proof.
  intros (pre & post & ->). exists (v ++ pre), post.
  now rewrite string_app_assoc.
Qed.



Lemma prefix_spec (a s : string) :
  String.prefix a s = true <-> exists post, s = a ++ post.
Proof.
  revert s. induction a as [|x a IH]; intros s.
  - split; [intros _; now exists s | intros _; now destruct s].
  - destruct s as [|y s]; simpl.
    + split; [discriminate | intros (post & H); discriminate].
    + destruct (ascii_dec x y) as [->|Hne].
      * split.
        -- intros H. apply IH in H. destruct H as (post & ->). now exists post.
        -- intros (post & H). apply IH. exists post. now injection H.
      * split; [discriminate | intros (post & H)].
        injection H as H1 _. congruence.
Qed.

Lemma is_substring_spec (sub s : string) :
  is_substring sub s = true <-> contains s sub.
Proof.
  induction s as [|c s IH].
  - change (is_substring sub EmptyString)
      with (String.prefix sub EmptyString || false).
    rewrite orb_false_r, prefix_spec. split.
    + intros (post & H). exists EmptyString, post. exact H.
    + intros (pre & post & H). destruct pre; simpl in H.
      * now exists post.
      * discriminate.
  - change (is_substring sub (String c s))
      with (String.prefix sub (String c s) || is_substring sub s).
    rewrite orb_true_iff, IH, prefix_spec. split.
    + intros [(post & H) | H].
      * exists EmptyString, post. exact H.
      * now apply contains_skip.
    + intros (pre & post & H). destruct pre as [|x pre]; simpl in H.
      * left. now exists post.
      * right. injection H as _ H. now exists pre, post.
Qed.

(** ** Dictionaries *)

Lemma dict_get_del_same (k : string) (d : dict) :
  dict_get k (dict_del k d) = None.
Proof.
  induction d as [|[k' v] d IH]; simpl; [reflexivity|].
  destruct (String.eqb k k') eqn:E; [exact IH|].
  simpl. now rewrite E.
Qed.

Lemma dict_get_del_other (k k' : string) (d : dict) :
  k <> k' -> dict_get k' (dict_del k d) = dict_get k' d.
Proof.
  intros Hne. induction d as [|[x v] d IH]; simpl; [reflexivity|].
  destruct (String.eqb k x) eqn:E.
  - apply String.eqb_eq in E. subst x.
    destruct (String.eqb k' k) eqn:E'; [|exact IH].
    apply String.eqb_eq in E'. congruence.
  - simpl. now rewrite IH.
Qed.

(** ** Validation *)

Lemma ok_vap {A B} (f : validation (A -> B)) (x : validation A) :
  ok (f <*> x) <-> ok f /\ ok x.
Proof.
  unfold ok. destruct f as [e1|g], x as [e2|a]; simpl; split.
  all: try (intros (b & H); discriminate).
  all: try (intros [(b & H) (c & H')]; discriminate).
  - intros _. eauto.
  - intros _. eauto.
Qed.

Lemma ok_vmap {A B} (g : A -> B) (v : validation A) : ok (vmap g v) <-> ok v.
Proof.
  unfold ok. destruct v as [errs|a]; simpl; split; intros (b & H);
    try discriminate; eauto.
Qed.

Lemma ok_inr {A} (a : A) : ok (inr a : validation A).
Proof. now exists a. Qed.

Lemma vap_inr {A B} (f : validation (A -> B)) (x : validation A) (b : B) :
  f <*> x = inr b -> exists g a, f = inr g /\ x = inr a /\ b = g a.
Proof.
  destruct f as [e1|g], x as [e2|a]; simpl; try discriminate.
  intros H. injection H as <-. now exists g, a.
Qed.

Lemma vmap_inr {A B} (g : A -> B) (v : validation A) (b : B) :
  vmap g v = inr b -> exists a, v = inr a /\ b = g a.
Proof.
  destruct v as [errs|a]; simpl; try discriminate.
  intros H. injection H as <-. now exists a.
Qed.

Lemma fails_vap_r {A B} (f : validation (A -> B)) (x : validation A) err :
  fails_with x err -> fails_with (f <*> x) err.
Proof.
  intros (errs & -> & Hin). destruct f as [e1|g]; simpl.
  - exists (e1 ++ errs)%list. split; [reflexivity|]. apply in_or_app. now right.
  - now exists errs.
Qed.

Lemma fails_vap_l {A B} (f : validation (A -> B)) (x : validation A) err :
  fails_with f err -> fails_with (f <*> x) err.
Proof.
  intros (errs & -> & Hin). destruct x as [e2|a]; simpl.
  - exists (errs ++ e2)%list. split; [reflexivity|]. apply in_or_app. now left.
  - now exists errs.
Qed.

Lemma fails_vmap {A B} (g : A -> B) (v : validation A) err :
  fails_with v err -> fails_with (vmap g v) err.
Proof. intros (errs & -> & Hin). now exists errs. Qed.

Section FieldFacts.
Context {C : Coercion}.

Lemma required_str_missing (n : string) (d : dict) :
  dict_get n d = None ->
  fails_with (required_str n d) {| loc := n; kind := Missing |}.
Proof.
  intros H. unfold required_str. rewrite H.
  eexists. split; [reflexivity | now left].
Qed.

Lemma required_str_del (k n : string) (d : dict) :
  k <> n -> required_str n (dict_del k d) = required_str n d.
Proof.
  intros H. unfold required_str. now rewrite dict_get_del_other.
Qed.

Lemma optional_absent {T} (c : json -> option T) n dflt d :
  dict_get n d = None -> optional c n dflt d = inr (Some dflt).
Proof. intros H. unfold optional. now rewrite H. Qed.

Lemma optional_null {T} (c : json -> option T) n dflt d :
  dict_get n d = Some JNull -> optional c n dflt d = inr None.
Proof. intros H. unfold optional. now rewrite H. Qed.

Lemma optional_bad {T} (c : json -> option T) n dflt d v :
  dict_get n d = Some v -> v <> JNull -> c v = None ->
  fails_with (optional c n dflt d) {| loc := n; kind := WrongType |}.
Proof.
  intros H Hnull Hc. unfold optional. rewrite H, Hc.
  destruct v; try congruence; eexists; (split; [reflexivity | now left]).
Qed.

Lemma optional_del_other {T} (c : json -> option T) k n dflt d :
  k <> n -> optional c n dflt (dict_del k d) = optional c n dflt d.
Proof. intros H. unfold optional. now rewrite dict_get_del_other. Qed.

Lemma optional_del_ok {T} (c : json -> option T) k n dflt d :
  ok (optional c n dflt d) -> ok (optional c n dflt (dict_del k d)).
Proof.
  intros H. destruct (string_dec k n) as [->|Hne].
  - rewrite optional_absent by apply dict_get_del_same. apply ok_inr.
  - now rewrite optional_del_other.
Qed.

End FieldFacts.

(** ** The gateway *)

Lemma call_claude_trace (client : provider) (prompt : string) (log : trace) :
  called_once prompt log (snd (call_claude client prompt log)).
Proof.
  unfold called_once, call_claude, try_except, bind, messages_create.
  destruct (client log (request_args prompt)) as [m|e].
  - destruct (content m) as [|[text|cls] rest]; reflexivity.
  - destruct e; reflexivity.
Qed.

Lemma call_claude_text (client : provider) prompt log m text rest :
  client log (request_args prompt) = Returns m ->
  content m = TextBlock text :: rest ->
  fst (call_claude client prompt log) = inr (ok_result text).
Proof.
  intros H Hc. unfold call_claude, try_except, bind, messages_create.
  now rewrite H, Hc.
Qed.

Lemma call_claude_empty (client : provider) prompt log m :
  client log (request_args prompt) = Returns m ->
  content m = [] ->
  fst (call_claude client prompt log) =
    inl (HTTPException 500 ("AI 분석 중 오류: " ++ "list index out of range")).
Proof.
  intros H Hc. unfold call_claude, try_except, bind, messages_create.
  now rewrite H, Hc.
Qed.

Lemma call_claude_mapping (client : provider) (prompt : string)
  (log : trace) :
  match fst (call_claude client prompt log) with
  | inr v =>
      exists m text rest,
        client log (request_args prompt) = Returns m /\
        content m = TextBlock text :: rest /\ v = ok_result text
  | inl ex =>
      (exists msg,
         client log (request_args prompt) = Raises (AuthenticationError msg)
         /\ ex = HTTPException 401 "API 키가 유효하지 않습니다") \/
      (exists msg,
         client log (request_args prompt) = Raises (RateLimitError msg)
         /\ ex = HTTPException 429
                   "API 호출 한도 초과. 잠시 후 다시 시도해주세요") \/
      (exists e,
         ex = HTTPException 500 ("AI 분석 중 오류: " ++ str e) /\
         match e with
         | AuthenticationError _ | RateLimitError _ => False
         | _ => True
         end /\
         (client log (request_args prompt) = Raises e \/
          exists m,
            client log (request_args prompt) = Returns m /\
            (content m = [] /\ e = IndexError "list index out of range" \/
             exists cls rest,
               content m = OtherBlock cls :: rest /\
               e = AttributeError
                     ("'" ++ cls ++ "' object has no attribute 'text'"))))
  end.
Proof.
  unfold call_claude, try_except, bind, messages_create.
  destruct (client log (request_args prompt)) as [m|e]; simpl.
  - destruct (content m) as [|[text|cls] rest] eqn:Hm; simpl.
    + right. right. exists (IndexError "list index out of range").
      repeat split. right. exists m. auto.
    + exists m, text, rest. auto.
    + right. right.
      exists (AttributeError ("'" ++ cls ++ "' object has no attribute 'text'")).
      repeat split. right. exists m. split; [reflexivity|].
      right. now exists cls, rest.
  - destruct e as [msg|msg|msg|msg|sc detail|msg]; simpl.
    + left. now exists msg.
    + right. left. now exists msg.
    + right. right. exists (IndexError msg). repeat split. now left.
    + right. right. exists (AttributeError msg). repeat split. now left.
    + right. right. exists (HTTPException sc detail). repeat split. now left.
    + right. right. exists (OtherException msg). repeat split. now left.
Qed.

(** ** From the routes to the handlers *)

Lemma app_post {C : Coercion} (client : provider) (e : endpoint) (d : dict)
  (log : trace) :
  app client (post_request e d) log =
    match assemble e d with
    | inl errs => (validation_error_response errs, log)
    | inr prompt => respond (call_claude client prompt) log
    end.
Proof.
  destruct e; unfold app, post_request, assemble; cbn [path path_of meth body];
    cbn [find routes fst snd String.eqb Ascii.eqb Bool.eqb method_eqb post].
  all: unfold with_model, vmap.
  all: match goal with
       | |- context [match ?v with inl _ => _ | inr _ => _ end] => destruct v
       end; reflexivity.
Qed.

Lemma respond_call_claude (client : provider) (prompt : string) (log : trace) :
  respond (call_claude client prompt) log =
    (match fst (call_claude client prompt log) with
     | inr v => json_response 200 v
     | inl (HTTPException status_code detail) =>
         json_response status_code (JObj [("detail", JStr detail)])
     | inl _ => {| code := 500; payload := TextBody "Internal Server Error" |}
     end,
     (log ++ [request_args prompt])%list).
Proof.
  pose proof (call_claude_trace client prompt log) as Ht.
  unfold called_once in Ht. unfold respond.
  destruct (call_claude client prompt log) as [[ex|v] log']; simpl in *.
  - destruct ex; now rewrite Ht.
  - now rewrite Ht.
Qed.

Lemma call_claude_raises (client : provider) prompt log err :
  client log (request_args prompt) = Raises err ->
  fst (call_claude client prompt log) =
    inl match err with
        | AuthenticationError _ =>
            HTTPException 401 "API 키가 유효하지 않습니다"
        | RateLimitError _ =>
            HTTPException 429 "API 호출 한도 초과. 잠시 후 다시 시도해주세요"
        | _ => HTTPException 500 ("AI 분석 중 오류: " ++ str err)
        end.
Proof.
  intros H. unfold call_claude, try_except, bind, messages_create.
  rewrite H. destruct err; reflexivity.
Qed.

(** * The claims *)

(** C1. On every prompt endpoint and for every body that validates, when
    the provider call returns and the first block of its answer is a text
    block holding [X], the endpoint answers 200 with exactly
    [{"status": "ok", "result": X}], [X] being passed through untouched, after
    one call to the provider. *)
Theorem C1_success_passthrough {C : Coercion} (client : provider)
  (e : endpoint) (d : dict) (prompt : string) (log : trace) (m : Message)
  (X : string) (rest : list ContentBlock) :
  assemble e d = inr prompt ->
  client log (request_args prompt) = Returns m ->
  content m = TextBlock X :: rest ->
  app client (post_request e d) log =
    (json_response 200 (JObj [("status", JStr "ok"); ("result", JStr X)]),
     (log ++ [request_args prompt])%list).
Proof.
  intros Ha Hc Hm. rewrite app_post, Ha, respond_call_claude.
  now rewrite (call_claude_text client prompt log m X rest Hc Hm).
Qed.

Lemma C1_success_passthrough_witness :
  app (C := exact) (answering "X")
      (post_request Topic [("topic", JStr "AI")]) [] =
    (json_response 200 (JObj [("status", JStr "ok"); ("result", JStr "X")]),
     [request_args
        (analyze_topic_prompt
           (TopicRequest.Build "AI" (Some EmptyString) (Some EmptyString)
              (Some EmptyString)))]).
Proof.
  apply (@C1_success_passthrough exact (answering "X") Topic
           [("topic", JStr "AI")] _ [] {| content := [TextBlock "X"] |}
           "X" []); reflexivity.
Defined.

(** C2. On every prompt endpoint, a failure of the provider call is
    translated as follows: the authentication failure gives 401 with a
    non-empty detail, the rate-limit failure gives 429, and any other error
    gives 500 with a detail that carries the error's message. In each case
    the provider has been called exactly once: nothing is retried. *)
Theorem C2_error_translation {C : Coercion} (client : provider)
  (e : endpoint) (d : dict) (prompt : string) (log : trace)
  (err : exception) :
  assemble e d = inr prompt ->
  client log (request_args prompt) = Raises err ->
  let (resp, log') := app client (post_request e d) log in
  called_once prompt log log' /\
  match err with
  | AuthenticationError _ =>
      exists detail,
        resp = json_response 401 (JObj [("detail", JStr detail)]) /\
        detail <> EmptyString
  | RateLimitError _ =>
      exists detail, resp = json_response 429 (JObj [("detail", JStr detail)])
  | _ =>
      resp = json_response 500
               (JObj [("detail", JStr ("AI 분석 중 오류: " ++ str err))])
  end.
Proof.
  intros Ha Hc. rewrite app_post, Ha, respond_call_claude.
  rewrite (call_claude_raises client prompt log err Hc).
  split; [reflexivity|].
  destruct err; try reflexivity.
  - eexists. split; [reflexivity | discriminate].
  - eexists. reflexivity.
Qed.

Lemma C2_error_translation_witness :
  let (resp, log') :=
    app (C := exact) (failing (OtherException "overloaded"))
        (post_request Journal [("topic", JStr "AI")]) [] in
  called_once
    (match_journal_prompt
       (JournalRequest.Build "AI" (Some EmptyString) (Some EmptyString)
          (Some "SCI/SCIE"))) [] log' /\
  resp = json_response 500
           (JObj [("detail", JStr ("AI 분석 중 오류: " ++ "overloaded"))]).
Proof.
  apply (@C2_error_translation exact (failing (OtherException "overloaded"))
           Journal [("topic", JStr "AI")] _ [] (OtherException "overloaded"));
    reflexivity.
Defined.

(** C8. [GET /health] answers exactly [{"status": "ok"}] whatever the
    provider client is, and leaves the trace of provider calls as it was:
    the gateway is not invoked. *)
Theorem C8_health_static {C : Coercion} (client : provider) (b : json)
  (log : trace) :
  app client {| meth := GET; path := "/health"; body := b |} log =
    (json_response 200 (JObj [("status", JStr "ok")]), log).
Proof. reflexivity. Qed.

(** C10. [call_claude] propagates no exception other than the
    [HTTPException]s of its own error mapping. It returns only the record
    built from the text of the first block; otherwise it raises 401 with
    the fixed detail (the provider raised the authentication failure), 429
    with the fixed detail (the provider raised the rate limit), or 500 with
    the detail "AI 분석 중 오류: " followed by the message of the error that
    the generic handler caught: another error of the provider call, or the
    error of reading the first text block. In particular, when the provider
    call returns an answer whose content list is empty, the indexing error
    is caught by the generic handler: [call_claude] raises [HTTPException]
    500 with a detail that begins with "AI 분석 중 오류:", and the endpoint
    answers 500 with that detail. *)
Theorem C10_only_http_exceptions (client : provider) (prompt : string)
  (log : trace) :
  match fst (call_claude client prompt log) with
  | inr v =>
      exists m text rest,
        client log (request_args prompt) = Returns m /\
        content m = TextBlock text :: rest /\ v = ok_result text
  | inl ex =>
      (exists msg,
         client log (request_args prompt) = Raises (AuthenticationError msg)
         /\ ex = HTTPException 401 "API 키가 유효하지 않습니다") \/
      (exists msg,
         client log (request_args prompt) = Raises (RateLimitError msg)
         /\ ex = HTTPException 429
                   "API 호출 한도 초과. 잠시 후 다시 시도해주세요") \/
      (exists e,
         ex = HTTPException 500 ("AI 분석 중 오류: " ++ str e) /\
         match e with
         | AuthenticationError _ | RateLimitError _ => False
         | _ => True
         end /\
         (client log (request_args prompt) = Raises e \/
          exists m,
            client log (request_args prompt) = Returns m /\
            (content m = [] /\ e = IndexError "list index out of range" \/
             exists cls rest,
               content m = OtherBlock cls :: rest /\
               e = AttributeError
                     ("'" ++ cls ++ "' object has no attribute 'text'"))))
  end /\
  forall m,
    client log (request_args prompt) = Returns m ->
    content m = [] ->
    let detail := "AI 분석 중 오류: " ++ "list index out of range" in
    call_claude client prompt log =
      (inl (HTTPException 500 detail), (log ++ [request_args prompt])%list) /\
    forall (C : Coercion) e d,
      assemble e d = inr prompt ->
      app client (post_request e d) log =
        (json_response 500 (JObj [("detail", JStr detail)]),
         (log ++ [request_args prompt])%list).
Proof.
  split; [apply call_claude_mapping|].
  intros m Hc Hm detail.
  pose proof (call_claude_empty client prompt log m Hc Hm) as Hf.
  pose proof (call_claude_trace client prompt log) as Ht.
  unfold called_once in Ht. split.
  - destruct (call_claude client prompt log) as [r log']; simpl in *.
    now rewrite Hf, Ht.
  - intros C e d Ha. now rewrite app_post, Ha, respond_call_claude, Hf.
Qed.

Lemma C10_only_http_exceptions_witness :
  call_claude (fun _ _ => Returns {| content := [] |}) "p" [] =
    (inl (HTTPException 500 ("AI 분석 중 오류: " ++ "list index out of range")),
     [request_args "p"]).
Proof.
  exact (proj1 (proj2 (C10_only_http_exceptions
                         (fun _ _ => Returns {| content := [] |}) "p" [])
                  {| content := [] |} eq_refl eq_refl)).
Defined.

(** ** Endpoint by endpoint *)

Lemma contains_join (pre chunk label V V' rest : string) :
  chunk = pre ++ label -> V = V' ->
  contains (chunk ++ V ++ rest) (label ++ V').
Proof.
  intros -> ->. exists pre, rest. now rewrite !string_app_assoc.
Qed.

(** Walks down a prompt to the line [label ++ value]; the label follows a
    line break, or the unit that closes the line before it. *)
Ltac find_line :=
  first [ apply (contains_join (String "010"%char EmptyString)); reflexivity
        | apply (contains_join "단어
"); reflexivity
        | apply contains_app_r; find_line ].

Ltac invert_vap H :=
  lazymatch type of H with
  | vap _ _ = inr _ =>
      let g := fresh "g" in
      let a := fresh "a" in
      let Hf := fresh "Hf" in
      let Hx := fresh "Hx" in
      let Hb := fresh "Hb" in
      apply vap_inr in H; destruct H as (g & a & Hf & Hx & Hb);
      subst; invert_vap Hf
  | inr _ = inr _ => injection H as H; subst
  end.

Ltac unfold_validate :=
  unfold TopicRequest.validate, LitReviewRequest.validate,
    StructureRequest.validate, IntroRequest.validate,
    AbstractRequest.validate, JournalRequest.validate,
    ReviewRequest.validate, optional_str, optional_int in *.

Ltac unfold_prompt :=
  unfold analyze_topic_prompt, literature_review_prompt,
    paper_structure_prompt, write_introduction_prompt,
    generate_abstract_prompt, match_journal_prompt, review_response_prompt.

(** Exposes the values a prompt interpolates. *)
Ltac show_fields :=
  unfold_prompt;
  cbn [TopicRequest.topic TopicRequest.field TopicRequest.keywords
       TopicRequest.purpose LitReviewRequest.topic LitReviewRequest.field
       LitReviewRequest.keywords LitReviewRequest.scope
       LitReviewRequest.known_papers StructureRequest.topic
       StructureRequest.field StructureRequest.keywords
       StructureRequest.paper_type StructureRequest.methodology
       IntroRequest.topic IntroRequest.field IntroRequest.keywords
       IntroRequest.language AbstractRequest.topic AbstractRequest.field
       AbstractRequest.keywords AbstractRequest.word_count
       AbstractRequest.language JournalRequest.topic JournalRequest.field
       JournalRequest.keywords JournalRequest.index_type ReviewRequest.topic
       ReviewRequest.reviewer_comment ReviewRequest.language label
       placeholder f_field f_keywords f_purpose f_scope f_known_papers
       f_paper_type f_methodology f_language f_word_count f_index_type
       guarded].

Ltac pick_field Hin :=
  simpl in Hin;
  repeat (destruct Hin as [<-|Hin]; [|try contradiction]);
  try contradiction.

Section Endpoints.
Context {C : Coercion}.

Lemma missing_required (e : endpoint) (k : string) (d : dict) :
  In k (required_fields e) -> dict_get k d = None ->
  fails_with (assemble e d) {| loc := k; kind := Missing |}.
Proof.
  intros Hin Hk.
  destruct e; pick_field Hin; unfold assemble; apply fails_vmap;
    unfold_validate;
    repeat first [ apply fails_vap_r; apply required_str_missing; exact Hk
                 | apply fails_vap_l ].
Qed.

Lemma malformed_optional (e : endpoint) (f : optional_field) (d : dict)
  (v : json) :
  In f (optional_fields e) -> dict_get (name f) d = Some v ->
  v <> JNull -> coercible f v = false ->
  fails_with (assemble e d) {| loc := name f; kind := WrongType |}.
Proof.
  intros Hin Hk Hnull Hc. unfold coercible in Hc.
  destruct e; pick_field Hin; simpl in Hk, Hc |- *;
    match type of Hc with
    | match ?c with Some _ => _ | None => _ end = _ => destruct c eqn:E
    end;
    try discriminate; apply fails_vmap; unfold_validate;
    repeat first [ apply fails_vap_r;
                   apply (optional_bad _ _ _ _ v Hk Hnull E)
                 | apply fails_vap_l ].
Qed.

Lemma absent_renders_default (e : endpoint) (f : optional_field) (d : dict)
  (prompt : string) :
  In f (optional_fields e) -> dict_get (name f) d = None ->
  assemble e d = inr prompt ->
  contains prompt (label f ++ placeholder f).
Proof.
  intros Hin Hk Ha.
  destruct e; pick_field Hin; simpl in Hk; unfold assemble in Ha;
    apply vmap_inr in Ha; destruct Ha as (req & Hv & ->);
    unfold_validate; invert_vap Hv;
    match goal with
    | H : optional _ ?n _ d = inr _, Habs : dict_get ?n d = None |- _ =>
        rewrite (optional_absent _ _ _ _ Habs) in H; injection H as <-
    end;
    show_fields; find_line.
Qed.



Lemma deletion_accepted (e : endpoint) (k : string) (d : dict) :
  ~ In k (required_fields e) -> accepted e d -> accepted e (dict_del k d).
Proof.
  intros Hk. unfold accepted.
  destruct e; simpl in Hk |- *; rewrite !ok_vmap; unfold_validate;
    rewrite !ok_vap;
    rewrite ?required_str_del by (intros ->; apply Hk; simpl; auto);
    intuition auto using optional_del_ok.
Qed.

Lemma complete_body_accepted (e : endpoint) :
  accepted e [("topic", JStr "t"); ("reviewer_comment", JStr "c")].
Proof.
  unfold accepted.
  destruct e; simpl; rewrite ok_vmap; unfold_validate; rewrite !ok_vap;
    unfold required_str, optional; simpl; rewrite ?coerce_str_JStr;
    repeat split; apply ok_inr.
Qed.

Lemma fails_not_ok {A} (v : validation A) (err : verror) :
  fails_with v err -> ~ ok v.
Proof. intros (errs & -> & _) (a & H). discriminate. Qed.

Lemma rejected_response (client : provider) (e : endpoint) (d : dict)
  (log : trace) (err : verror) :
  fails_with (assemble e d) err ->
  exists errs,
    app client (post_request e d) log = (validation_error_response errs, log)
    /\ In err errs.
Proof.
  intros (errs & Ha & Hin). exists errs. now rewrite app_post, Ha.
Qed.

End Endpoints.

(** C3. On every prompt endpoint, a body that lacks a required key ([topic]
    everywhere, and also [reviewer_comment] on [/api/review-response]) is
    rejected by the validation of the request model: the answer is the 422
    validation error, it reports the key as missing, and the trace of
    provider calls is unchanged, so the gateway was not invoked. *)
Theorem C3_missing_required_rejected {C : Coercion} (client : provider)
  (e : endpoint) (k : string) (d : dict) (log : trace) :
  In k (required_fields e) ->
  dict_get k d = None ->
  exists errs,
    app client (post_request e d) log = (validation_error_response errs, log)
    /\ In {| loc := k; kind := Missing |} errs.
Proof.
  intros Hin Hk. apply rejected_response. now apply missing_required.
Qed.

Lemma C3_missing_required_rejected_witness :
  exists errs,
    app (C := exact) (answering "X")
        (post_request ReviewResponse [("topic", JStr "AI")]) [] =
      (validation_error_response errs, [])
    /\ In {| loc := "reviewer_comment"; kind := Missing |} errs.
Proof.
  apply (@C3_missing_required_rejected exact (answering "X") ReviewResponse
           "reviewer_comment" [("topic", JStr "AI")] []).
  - simpl. auto.
  - reflexivity.
Defined.



(** Reads the default of an absent key off a validated model. *)
Ltac default_value Hv Hk :=
  unfold_validate; invert_vap Hv;
  match goal with
  | H : optional _ ?n _ _ = inr _ |- _ =>
      rewrite (optional_absent _ _ _ _ Hk) in H; injection H as <-
  end;
  reflexivity.

Ltac default_line e f Hv Hk :=
  eapply (absent_renders_default e f);
  [ simpl; auto | exact Hk | unfold assemble; now rewrite Hv ].

(** C5 (as the code has it). The defaults of the absent optional fields are
    the strings the models declare: an absent [scope] on [/api/literature]
    is "최근 5년", an absent [paper_type] on [/api/structure] is "원저", an
    absent [language] on [/api/introduction], [/api/abstract] and
    [/api/review-response] is "한국어"; and the assembled prompt shows each
    of them after its label. *)
Theorem C5_declared_defaults {C : Coercion} (d : dict) :
  (dict_get "scope" d = None ->
   forall req, LitReviewRequest.validate d = inr req ->
     LitReviewRequest.scope req = Some "최근 5년" /\
     contains (literature_review_prompt req) ("검색 범위: " ++ "최근 5년")) /\
  (dict_get "paper_type" d = None ->
   forall req, StructureRequest.validate d = inr req ->
     StructureRequest.paper_type req = Some "원저" /\
     contains (paper_structure_prompt req) ("논문 유형: " ++ "원저")) /\
  (dict_get "language" d = None ->
   (forall req, IntroRequest.validate d = inr req ->
      IntroRequest.language req = Some "한국어" /\
      contains (write_introduction_prompt req) ("언어: " ++ "한국어")) /\
   (forall req, AbstractRequest.validate d = inr req ->
      AbstractRequest.language req = Some "한국어" /\
      contains (generate_abstract_prompt req) ("언어: " ++ "한국어")) /\
   (forall req, ReviewRequest.validate d = inr req ->
      ReviewRequest.language req = Some "한국어" /\
      contains (review_response_prompt req) ("언어: " ++ "한국어"))).
Proof.
  repeat split; intros; repeat split; intros; try split.
  all: match goal with
       | Hk : dict_get _ _ = None, Hv : _ = inr ?req |- _ = Some _ =>
           default_value Hv Hk
       | Hk : dict_get _ _ = None, Hv : _ = inr ?req |- contains _ _ =>
           first [ default_line Literature f_scope Hv Hk
                 | default_line Structure f_paper_type Hv Hk
                 | default_line Introduction f_language Hv Hk
                 | default_line Abstract f_language Hv Hk
                 | default_line ReviewResponse f_language Hv Hk ]
       end.
Qed.

Lemma C5_declared_defaults_witness :
  let req :=
    LitReviewRequest.Build "AI" (Some EmptyString) (Some EmptyString)
      (Some "최근 5년") (Some EmptyString) in
  LitReviewRequest.scope req = Some "최근 5년" /\
  contains (literature_review_prompt req) ("검색 범위: " ++ "최근 5년").
Proof.
  apply (proj1 (@C5_declared_defaults exact [("topic", JStr "AI")]));
    reflexivity.
Defined.

(** C5, as the spec words it, fails: with no [scope], [paper_type] or
    [language] in the body, the defaults are not "recent 5 years",
    "original research" and "Korean", and the prompts do not contain these
    strings. *)
Lemma C5_counterexample :
  let d := [("topic", JStr "AI")] in
  (exists req,
     LitReviewRequest.validate (C := exact) d = inr req /\
     LitReviewRequest.scope req <> Some "recent 5 years" /\
     is_substring "recent 5 years" (literature_review_prompt req) = false) /\
  (exists req,
     StructureRequest.validate (C := exact) d = inr req /\
     StructureRequest.paper_type req <> Some "original research" /\
     is_substring "original research" (paper_structure_prompt req) = false) /\
  (exists req,
     IntroRequest.validate (C := exact) d = inr req /\
     IntroRequest.language req <> Some "Korean" /\
     is_substring "Korean" (write_introduction_prompt req) = false).
Proof.
  repeat split; eexists; (split; [reflexivity|]);
    (split; [discriminate | vm_compute; reflexivity]).
Qed.

(** C6 (as the code has it). On every prompt endpoint the required keys are
    exactly those of [required_fields]: [topic], and on
    [/api/review-response] also [reviewer_comment], so that model has two
    required fields. Every other key is optional: dropping it from an
    accepted body leaves the body accepted. *)
Theorem C6_required_fields {C : Coercion} (e : endpoint) :
  (forall k, requires e k <-> In k (required_fields e)) /\
  (forall k d, ~ In k (required_fields e) ->
     accepted e d -> accepted e (dict_del k d)).
Proof.
  split; [|intros k d; apply deletion_accepted].
  intros k. split.
  - intros Hreq.
    destruct (in_dec string_dec k (required_fields e)) as [Hin|Hout];
      [exact Hin|].
    exfalso.
    apply (Hreq (dict_del k [("topic", JStr "t");
                             ("reviewer_comment", JStr "c")])).
    + apply dict_get_del_same.
    + apply deletion_accepted; [exact Hout | apply complete_body_accepted].
  - intros Hin d Hk. unfold accepted.
    eapply fails_not_ok. exact (missing_required e k d Hin Hk).
Qed.

Lemma C6_required_fields_witness :
  accepted (C := exact) Journal
    (dict_del "index_type" [("topic", JStr "AI"); ("index_type", JStr "KCI")]).
Proof.
  apply (proj2 (@C6_required_fields exact Journal) "index_type"
           [("topic", JStr "AI"); ("index_type", JStr "KCI")]).
  - simpl. intros [H|[]]. discriminate H.
  - eexists. reflexivity.
Defined.

(** C6, as the spec words it, fails on [/api/review-response]: that model
    has two required fields, not one. A body with only the reviewer comment
    and a body with only the topic are both rejected, the body with both is
    accepted. *)
Lemma C6_counterexample :
  ~ exactly_one_required (C := exact) ReviewResponse /\
  ~ accepted (C := exact) ReviewResponse [("reviewer_comment", JStr "c")] /\
  ~ accepted (C := exact) ReviewResponse [("topic", JStr "t")] /\
  accepted (C := exact) ReviewResponse
    [("topic", JStr "t"); ("reviewer_comment", JStr "c")].
Proof.
  assert (Hreq : forall k, In k ["topic"; "reviewer_comment"] ->
                   requires (C := exact) ReviewResponse k).
  { intros k Hin d Hk. unfold accepted. eapply fails_not_ok.
    exact (missing_required (C := exact) ReviewResponse k d Hin Hk). }
  repeat split.
  - intros (k & _ & Huniq).
    pose proof (Huniq "topic" (Hreq _ (or_introl eq_refl))) as H1.
    pose proof (Huniq "reviewer_comment"
                  (Hreq _ (or_intror (or_introl eq_refl)))) as H2.
    rewrite <- H2 in H1. discriminate H1.
  - intros (p & H). discriminate H.
  - intros (p & H). discriminate H.
  - eexists. reflexivity.
Qed.

(** C7 (as the code has it). An optional key whose value is present, not
    [null], and does not coerce to the type of its field is not defaulted:
    the request is rejected with the 422 validation error, which reports the
    key, and the gateway is not invoked. Only an absent optional key takes
    its default and lets the request go on to the gateway, which is then
    called once. *)
Theorem C7_malformed_optional_rejected {C : Coercion} (client : provider)
  (e : endpoint) (f : optional_field) (d : dict) (log : trace) :
  In f (optional_fields e) ->
  (forall v,
     dict_get (name f) d = Some v -> v <> JNull -> coercible f v = false ->
     exists errs,
       app client (post_request e d) log =
         (validation_error_response errs, log)
       /\ In {| loc := name f; kind := WrongType |} errs) /\
  (forall prompt,
     dict_get (name f) d = None -> assemble e d = inr prompt ->
     contains prompt (label f ++ placeholder f) /\
     called_once prompt log (snd (app client (post_request e d) log))).
Proof.
  intros Hin. split.
  - intros v Hk Hnull Hc. apply rejected_response.
    now apply (malformed_optional e f d v).
  - intros prompt Hk Ha. split.
    + now apply (absent_renders_default e f d).
    + rewrite app_post, Ha, respond_call_claude. reflexivity.
Qed.

Lemma C7_malformed_optional_rejected_witness :
  exists errs,
    app (C := exact) (answering "X")
        (post_request Abstract
           [("topic", JStr "AI"); ("word_count", JList [JInt 250])]) [] =
      (validation_error_response errs, [])
    /\ In {| loc := "word_count"; kind := WrongType |} errs.
Proof.
  apply (proj1 (@C7_malformed_optional_rejected exact (answering "X")
                  Abstract f_word_count
                  [("topic", JStr "AI"); ("word_count", JList [JInt 250])]
                  [] (or_intror (or_intror (or_introl eq_refl))))
           (JList [JInt 250])).
  - reflexivity.
  - discriminate.
  - reflexivity.
Defined.

(** C7, as the spec words it, fails: a [word_count] that is not an integer
    makes [/api/abstract] answer the 422 validation error, and the provider
    is never called. *)
Lemma C7_counterexample :
  let (resp, log') :=
    app (C := exact) (answering "X")
        (post_request Abstract
           [("topic", JStr "AI"); ("word_count", JStr "abc")]) [] in
  resp = validation_error_response
           [{| loc := "word_count"; kind := WrongType |}] /\
  code resp = 422%Z /\
  log' = [].
Proof. vm_compute. repeat split. Qed.



(** * Further properties of the handlers and of the gateway *)

Lemma ends_with_spec (suffix s : string) :
  ends_with suffix s = true -> exists pre, s = pre ++ suffix.
Proof.
  induction s as [|c s IH].
  - change (ends_with suffix EmptyString)
      with (String.eqb EmptyString suffix || false).
    rewrite orb_false_r. intros H. apply String.eqb_eq in H.
    exists EmptyString. now subst.
  - change (ends_with suffix (String c s))
      with (String.eqb (String c s) suffix || ends_with suffix s).
    intros H. apply orb_true_iff in H. destruct H as [H|H].
    + apply String.eqb_eq in H. exists EmptyString. now subst.
    + destruct (IH H) as (pre & ->). now exists (String c pre).
Qed.

Lemma contains_line (chunk label V V' suffix rest rest' : string) :
  ends_with label chunk = true -> V = V' -> rest = suffix ++ rest' ->
  contains (chunk ++ V ++ rest) (label ++ V' ++ suffix).
Proof.
  intros H -> ->. destruct (ends_with_spec _ _ H) as (pre & ->).
  exists pre, rest'. now rewrite !string_app_assoc.
Qed.

(** Walks down a prompt to the whole line [label ++ value ++ suffix]. *)
Ltac find_full_line :=
  first [ eapply contains_line;
          [ vm_compute; reflexivity | reflexivity | reflexivity ]
        | apply contains_app_r; find_full_line ].

Section Rendering.
Context {C : Coercion}.

Lemma required_str_inr (n : string) (d : dict) (s : string) :
  required_str n d = inr s ->
  exists v, dict_get n d = Some v /\ coerce_str v = Some s.
Proof.
  unfold required_str. destruct (dict_get n d) as [v|]; [|discriminate].
  destruct (coerce_str v) as [s'|] eqn:E; [|discriminate].
  intros H. injection H as <-. now exists v.
Qed.

Lemma optional_supplied {T} (c : json -> option T) n dflt d v x :
  dict_get n d = Some v -> v <> JNull -> c v = Some x ->
  optional c n dflt d = inr (Some x).
Proof.
  intros H Hnull Hc. unfold optional. rewrite H, Hc.
  destruct v; congruence.
Qed.

Lemma supplied_str_renders (e : endpoint) (f : optional_field) (d : dict)
  (v : json) (s prompt : string) :
  In f (optional_fields e) -> ann f = OptionalStr ->
  dict_get (name f) d = Some v -> v <> JNull -> coerce_str v = Some s ->
  assemble e d = inr prompt ->
  contains prompt
    (label f ++ (if guarded f then py_or (Some s) (placeholder f) else s)
     ++ nl).
Proof.
  intros Hin Hann Hk Hnull Hc Ha.
  destruct e; pick_field Hin; try discriminate Hann; simpl in Hk;
    unfold assemble in Ha;
    apply vmap_inr in Ha; destruct Ha as (req & Hv & ->);
    unfold_validate; invert_vap Hv;
    match goal with
    | H : optional _ ?n _ d = inr _, Hs : dict_get ?n d = Some v |- _ =>
        rewrite (optional_supplied _ _ _ _ _ _ Hs Hnull Hc) in H;
        injection H as <-
    end;
    show_fields; find_full_line.
Qed.

Lemma topic_renders (e : endpoint) (d : dict) (prompt : string) :
  assemble e d = inr prompt ->
  exists v t,
    dict_get "topic" d = Some v /\ coerce_str v = Some t /\
    contains prompt ("연구 주제: " ++ t ++ nl).
Proof.
  intros Ha.
  destruct e; unfold assemble in Ha;
    apply vmap_inr in Ha; destruct Ha as (req & Hv & ->);
    unfold_validate; invert_vap Hv;
    match goal with
    | H : required_str "topic" d = inr ?t |- _ =>
        destruct (required_str_inr _ _ _ H) as (v & Hd & Hc);
        exists v, t; split; [exact Hd|]; split; [exact Hc|]
    end;
    show_fields; find_full_line.
Qed.

End Rendering.

(** X1. [GET /] answers the service record, whatever the client and the
    body of the request are, and the trace of provider calls is left as it
    was. *)
Theorem X1_root_static {C : Coercion} (client : provider) (b : json)
  (log : trace) :
  app client {| meth := GET; path := "/"; body := b |} log =
    (json_response 200
       (JObj [("service", JStr "슬기로운 논문생활 API");
              ("status", JStr "running");
              ("version", JStr "1.0")]),
     log).
Proof. reflexivity. Qed.

(** X4. Every prompt an endpoint assembles carries the topic of the request
    as it was received, on a line of its own after the label "연구 주제: ";
    on [/api/review-response] it carries the reviewer's comment in the same
    way after "심사 의견: ". *)
Theorem X4_topic_verbatim {C : Coercion} (e : endpoint) (d : dict)
  (prompt : string) :
  assemble e d = inr prompt ->
  (exists v t,
     dict_get "topic" d = Some v /\ coerce_str v = Some t /\
     contains prompt ("연구 주제: " ++ t ++ nl)) /\
  (e = ReviewResponse ->
   exists v c,
     dict_get "reviewer_comment" d = Some v /\ coerce_str v = Some c /\
     contains prompt ("심사 의견: " ++ c ++ nl)).
Proof.
  intros Ha. split; [now apply (topic_renders e d)|].
  intros ->. unfold assemble in Ha.
  apply vmap_inr in Ha. destruct Ha as (req & Hv & ->).
  unfold_validate. invert_vap Hv.
  match goal with
  | H : required_str "reviewer_comment" d = inr ?c |- _ =>
      destruct (required_str_inr _ _ _ H) as (v & Hd & Hc);
      exists v, c; split; [exact Hd|]; split; [exact Hc|]
  end.
  show_fields. find_full_line.
Qed.

Lemma X4_topic_verbatim_witness :
  exists v t,
    dict_get "topic" [("topic", JStr "  x{y} ")] = Some v /\
    coerce_str (Coercion := exact) v = Some t /\
    contains
      (match_journal_prompt
         (JournalRequest.Build "  x{y} " (Some EmptyString)
            (Some EmptyString) (Some "SCI/SCIE")))
      ("연구 주제: " ++ t ++ nl).
Proof.
  apply (proj1 (@X4_topic_verbatim exact Journal [("topic", JStr "  x{y} ")]
                  _ eq_refl)).
Defined.

(** X5. An optional text field that the body supplies with a non-empty
    value is written into the prompt as it is, on the line of its label:
    neither the placeholder nor the declared default replaces it. *)
Theorem X5_supplied_text_verbatim {C : Coercion} (e : endpoint)
  (f : optional_field) (d : dict) (v : json) (s prompt : string) :
  In f (optional_fields e) -> ann f = OptionalStr ->
  dict_get (name f) d = Some v -> v <> JNull -> coerce_str v = Some s ->
  s <> EmptyString ->
  assemble e d = inr prompt ->
  contains prompt (label f ++ s ++ nl).
Proof.
  intros Hin Hann Hk Hnull Hc Hs Ha.
  pose proof (supplied_str_renders e f d v s prompt Hin Hann Hk Hnull Hc Ha)
    as H.
  destruct s as [|c s]; [congruence|].
  destruct (guarded f); exact H.
Qed.

Lemma X5_supplied_text_verbatim_witness :
  contains
    (paper_structure_prompt
       (StructureRequest.Build "AI" (Some EmptyString) (Some EmptyString)
          (Some "원저") (Some " ")))
    ("방법론: " ++ " " ++ nl).
Proof.
  apply (@X5_supplied_text_verbatim exact Structure f_methodology
           [("topic", JStr "AI"); ("methodology", JStr " ")]
           (JStr " ") " " _
           (or_intror (or_intror (or_intror (or_introl eq_refl))))
           eq_refl eq_refl);
    [discriminate | reflexivity | discriminate | reflexivity].
Defined.

(** X6. An optional text field supplied as the empty string: a field the
    template guards with [or] shows its placeholder, as if the key were
    absent; a field the template does not guard shows nothing after its
    label, the declared default is not used. *)
Theorem X6_empty_text {C : Coercion} (e : endpoint) (f : optional_field)
  (d : dict) (v : json) (prompt : string) :
  In f (optional_fields e) -> ann f = OptionalStr ->
  dict_get (name f) d = Some v -> v <> JNull ->
  coerce_str v = Some EmptyString ->
  assemble e d = inr prompt ->
  contains prompt
    (label f ++ (if guarded f then placeholder f else EmptyString) ++ nl).
Proof.
  intros Hin Hann Hk Hnull Hc Ha.
  pose proof (supplied_str_renders e f d v EmptyString prompt
                Hin Hann Hk Hnull Hc Ha) as H.
  destruct (guarded f); exact H.
Qed.

Lemma X6_empty_text_witness :
  contains
    (write_introduction_prompt
       (IntroRequest.Build "AI" (Some EmptyString) (Some EmptyString)
          (Some EmptyString)))
    ("언어: " ++ EmptyString ++ nl).
Proof.
  apply (@X6_empty_text exact Introduction f_language
           [("topic", JStr "AI"); ("language", JStr EmptyString)]
           (JStr EmptyString) _
           (or_intror (or_intror (or_introl eq_refl)))
           eq_refl eq_refl);
    [discriminate | reflexivity | reflexivity].
Defined.

(** X7. On [/api/abstract] any integer supplied as [word_count] is written
    into the prompt in decimal, followed by the unit "단어": no range is
    checked, zero and negative counts included. *)
Theorem X7_word_count_rendered {C : Coercion} (d : dict) (v : json) (n : Z)
  (prompt : string) :
  dict_get "word_count" d = Some v -> v <> JNull -> coerce_int v = Some n ->
  assemble Abstract d = inr prompt ->
  contains prompt ("목표 단어 수: " ++ str_of_int n ++ "단어" ++ nl).
Proof.
  intros Hk Hnull Hc Ha. unfold assemble in Ha.
  apply vmap_inr in Ha. destruct Ha as (req & Hv & ->).
  unfold_validate. invert_vap Hv.
  match goal with
  | H : optional coerce_int _ _ d = inr _ |- _ =>
      rewrite (optional_supplied _ _ _ _ _ _ Hk Hnull Hc) in H;
      injection H as <-
  end.
  show_fields. find_full_line.
Qed.

Lemma X7_word_count_rendered_witness :
  contains
    (generate_abstract_prompt
       (AbstractRequest.Build "AI" (Some EmptyString) (Some EmptyString)
          (Some (-3)%Z) (Some "한국어")))
    ("목표 단어 수: " ++ "-3" ++ "단어" ++ nl).
Proof.
  apply (@X7_word_count_rendered exact
           [("topic", JStr "AI"); ("word_count", JInt (-3))]
           (JInt (-3)) (-3)%Z _ eq_refl);
    [discriminate | reflexivity | reflexivity].
Defined.

(** ** What reaches the provider *)

Lemma post_assemble {C : Coercion} (client : provider) (e : endpoint)
  (d : dict) (log : trace) :
  post client e (JObj d) log =
    match assemble e d with
    | inl errs => (validation_error_response errs, log)
    | inr prompt => respond (call_claude client prompt) log
    end.
Proof.
  destruct e; unfold post, with_model, assemble, vmap;
    match goal with
    | |- context [match ?v with inl _ => _ | inr _ => _ end] => destruct v
    end; reflexivity.
Qed.

Lemma post_trace {C : Coercion} (client : provider) (e : endpoint) (b : json)
  (log : trace) :
  snd (post client e b log) = log \/
  exists d prompt,
    b = JObj d /\ assemble e d = inr prompt /\
    snd (post client e b log) = (log ++ [request_args prompt])%list.
Proof.
  destruct b as [| | | | | |d]; try (left; reflexivity).
  rewrite post_assemble. destruct (assemble e d) as [errs|prompt] eqn:Ha.
  - left. reflexivity.
  - right. exists d, prompt. rewrite respond_call_claude. auto.
Qed.

Lemma method_eqb_eq (a b : method) : method_eqb a b = true -> a = b.
Proof. destruct a, b; simpl; congruence. Qed.

Lemma app_route {C : Coercion} (client : provider) (r : http_request)
  (log : trace) :
  snd (app client r log) = log \/
  exists e,
    meth r = POST /\ path r = path_of e /\
    app client r log = post client e (body r) log.
Proof.
  unfold app.
  destruct (find _ routes) as [[[m p] v]|] eqn:F; [|left; reflexivity].
  apply find_some in F. destruct F as [Hin Hp]. simpl in Hp.
  apply String.eqb_eq in Hp.
  destruct (method_eqb (meth r) m) eqn:M; [|left; reflexivity].
  apply method_eqb_eq in M.
  destruct v as [j|e]; [left; reflexivity|].
  right. exists e. simpl in Hin.
  repeat (destruct Hin as [Hin|Hin];
          [try discriminate Hin; injection Hin as <- <- <-; now auto|]).
  contradiction.
Qed.

Lemma app_trace {C : Coercion} (client : provider) (r : http_request)
  (log : trace) :
  snd (app client r log) = log \/
  exists e d prompt,
    meth r = POST /\ path r = path_of e /\ body r = JObj d /\
    assemble e d = inr prompt /\
    snd (app client r log) = (log ++ [request_args prompt])%list.
Proof.
  destruct (app_route client r log) as [H|(e & Hm & Hp & Happ)];
    [now left|].
  rewrite Happ.
  destruct (post_trace client e (body r) log) as [H|(d & p & Hb & Ha & Hs)];
    [now left|].
  right. exists e, d, p. auto.
Qed.

(** X2. Serving one request calls the provider at most once, and it calls
    it only for a [POST] to one of the seven prompt paths whose body is a
    JSON object that passes the validation of that endpoint; the call then
    carries the prompt assembled from that body. Every other request leaves
    the trace of provider calls as it was. *)
Theorem X2_at_most_one_call {C : Coercion} (client : provider)
  (r : http_request) (log : trace) :
  snd (app client r log) = log \/
  exists e d prompt,
    meth r = POST /\ path r = path_of e /\ body r = JObj d /\
    assemble e d = inr prompt /\
    snd (app client r log) = (log ++ [request_args prompt])%list.
Proof. apply app_trace. Qed.

(** X3. Whatever the request is, a call it adds to the trace uses the
    model "claude-sonnet-4-20250514", a budget of 4000 tokens, the system
    prompt [SYSTEM_PROMPT] and one message, of role "user": no field of a
    request can change the model, the budget or the system prompt. *)
Theorem X3_fixed_call_configuration {C : Coercion} (client : provider)
  (r : http_request) (log : trace) (args : create_args) :
  In args (snd (app client r log)) ->
  In args log \/
  (model args = "claude-sonnet-4-20250514" /\
   max_tokens args = 4000%Z /\
   system args = SYSTEM_PROMPT /\
   exists prompt, messages args = [("user", prompt)]).
Proof.
  intros Hin.
  destruct (app_trace client r log) as [H|(e & d & p & _ & _ & _ & _ & H)];
    rewrite H in Hin; [now left|].
  apply in_app_or in Hin. destruct Hin as [Hin|[<-|[]]]; [now left|].
  right. repeat split. now exists p.
Qed.

Lemma X3_fixed_call_configuration_witness :
  let args :=
    request_args
      (match_journal_prompt
         (JournalRequest.Build "AI" (Some EmptyString) (Some EmptyString)
            (Some "SCI/SCIE"))) in
  In args [request_args "earlier"] \/
  (model args = "claude-sonnet-4-20250514" /\
   max_tokens args = 4000%Z /\
   system args = SYSTEM_PROMPT /\
   exists prompt, messages args = [("user", prompt)]).
Proof.
  apply (@X3_fixed_call_configuration exact (answering "X")
           (post_request Journal [("topic", JStr "AI")])
           [request_args "earlier"]).
  simpl. right. left. reflexivity.
Defined.

(** ** Bodies that the endpoints do not tell apart *)

Section Indifference.
Context {C : Coercion}.

Lemma required_str_ext (n : string) (d1 d2 : dict) :
  dict_get n d1 = dict_get n d2 -> required_str n d1 = required_str n d2.
Proof. intros H. unfold required_str. now rewrite H. Qed.

Lemma optional_ext {T} (c : json -> option T) n dflt (d1 d2 : dict) :
  dict_get n d1 = dict_get n d2 -> optional c n dflt d1 = optional c n dflt d2.
Proof. intros H. unfold optional. now rewrite H. Qed.

Lemma declared_keys_decide (e : endpoint) (d1 d2 : dict) :
  (forall k, In k (declared_keys e) -> dict_get k d1 = dict_get k d2) ->
  assemble e d1 = assemble e d2.
Proof.
  intros H. destruct e; unfold assemble; unfold_validate;
    rewrite (required_str_ext "topic" d1 d2) by (apply H; simpl; tauto);
    rewrite ?(required_str_ext "reviewer_comment" d1 d2)
      by (apply H; simpl; tauto);
    repeat match goal with
           | |- context [optional ?c ?n ?dflt d1] =>
               rewrite (optional_ext c n dflt d1 d2)
                 by (apply H; simpl; tauto)
           end;
    reflexivity.
Qed.

Lemma null_as_absent (e : endpoint) (f : optional_field) (d : dict) :
  In f (optional_fields e) -> guarded f = true ->
  dict_get (name f) d = Some JNull ->
  assemble e d = assemble e (dict_del (name f) d).
Proof.
  intros Hin Hg Hk.
  destruct e; pick_field Hin; try discriminate Hg; simpl in Hk |- *;
    unfold_validate;
    rewrite (optional_null _ _ _ _ Hk);
    rewrite (optional_absent _ _ _ _ (dict_get_del_same _ _));
    rewrite ?required_str_del, ?optional_del_other by discriminate;
    repeat match goal with
           | |- context [required_str ?n ?x] => destruct (required_str n x)
           | |- context [optional ?c ?n ?dflt ?x] =>
               destruct (optional c n dflt x)
           end;
    reflexivity.
Qed.

End Indifference.

(** X8. An endpoint reads only the keys its model declares: two bodies that
    agree on these keys give the same validation result and the same prompt,
    hence the same provider call and the same answer. In particular keys the
    model does not declare are ignored. *)
Theorem X8_undeclared_keys_ignored {C : Coercion} (client : provider)
  (e : endpoint) (d1 d2 : dict) (log : trace) :
  (forall k, In k (declared_keys e) -> dict_get k d1 = dict_get k d2) ->
  assemble e d1 = assemble e d2 /\
  app client (post_request e d1) log = app client (post_request e d2) log.
Proof.
  intros H. pose proof (declared_keys_decide e d1 d2 H) as Ha.
  split; [exact Ha|]. now rewrite !app_post, Ha.
Qed.

Lemma X8_undeclared_keys_ignored_witness :
  assemble (C := exact) Topic
    [("model", JStr "other"); ("topic", JStr "AI"); ("max_tokens", JInt 9)] =
  assemble (C := exact) Topic [("topic", JStr "AI")] /\
  app (C := exact) (answering "X")
    (post_request Topic
       [("model", JStr "other"); ("topic", JStr "AI");
        ("max_tokens", JInt 9)]) [] =
  app (C := exact) (answering "X")
    (post_request Topic [("topic", JStr "AI")]) [].
Proof.
  apply (@X8_undeclared_keys_ignored exact (answering "X") Topic
           [("model", JStr "other"); ("topic", JStr "AI");
            ("max_tokens", JInt 9)]
           [("topic", JStr "AI")] []).
  intros k Hin. simpl in Hin.
  repeat (destruct Hin as [<-|Hin]; [reflexivity|]). contradiction.
Defined.

(** X9. For a field the template guards with [or] (field, keywords,
    purpose, methodology, known_papers), a body that gives the key as
    [null] and the same body without the key are not told apart: same
    validation result, same prompt, same answer. *)
Theorem X9_null_as_absent_when_guarded {C : Coercion} (client : provider)
  (e : endpoint) (f : optional_field) (d : dict) (log : trace) :
  In f (optional_fields e) -> guarded f = true ->
  dict_get (name f) d = Some JNull ->
  assemble e d = assemble e (dict_del (name f) d) /\
  app client (post_request e d) log =
    app client (post_request e (dict_del (name f) d)) log.
Proof.
  intros Hin Hg Hk. pose proof (null_as_absent e f d Hin Hg Hk) as Ha.
  split; [exact Ha|]. now rewrite !app_post, Ha.
Qed.

Lemma X9_null_as_absent_when_guarded_witness :
  assemble (C := exact) Literature
    [("topic", JStr "AI"); ("known_papers", JNull)] =
  assemble (C := exact) Literature
    (dict_del "known_papers" [("topic", JStr "AI"); ("known_papers", JNull)])
  /\
  app (C := exact) (answering "X")
    (post_request Literature
       [("topic", JStr "AI"); ("known_papers", JNull)]) [] =
  app (C := exact) (answering "X")
    (post_request Literature
       (dict_del "known_papers"
          [("topic", JStr "AI"); ("known_papers", JNull)])) [].
Proof.
  apply (@X9_null_as_absent_when_guarded exact (answering "X") Literature
           f_known_papers [("topic", JStr "AI"); ("known_papers", JNull)] []).
  - simpl. auto.
  - reflexivity.
  - reflexivity.
Defined.

(** ** Answers of the prompt endpoints *)

Lemma call_claude_no_text (client : provider) prompt log m cls rest :
  client log (request_args prompt) = Returns m ->
  content m = OtherBlock cls :: rest ->
  fst (call_claude client prompt log) =
    inl (HTTPException 500
           ("AI 분석 중 오류: " ++
            "'" ++ cls ++ "' object has no attribute 'text'")).
Proof.
  intros H Hc. unfold call_claude, try_except, bind, messages_create.
  now rewrite H, Hc.
Qed.


(** X10. Only the first block of the provider's answer is read. When that
    block is not a text block, the endpoint answers 500 with the detail
    "AI 분석 중 오류: " followed by the attribute error, even if a later
    block of the answer holds text. *)
Theorem X10_first_block_without_text {C : Coercion} (client : provider)
  (e : endpoint) (d : dict) (prompt : string) (log : trace) (m : Message)
  (cls : string) (rest : list ContentBlock) :
  assemble e d = inr prompt ->
  client log (request_args prompt) = Returns m ->
  content m = OtherBlock cls :: rest ->
  app client (post_request e d) log =
    (json_response 500
       (JObj [("detail",
               JStr ("AI 분석 중 오류: " ++
                     "'" ++ cls ++ "' object has no attribute 'text'"))]),
     (log ++ [request_args prompt])%list).
Proof.
  intros Ha Hc Hm. rewrite app_post, Ha, respond_call_claude.
  now rewrite (call_claude_no_text client prompt log m cls rest Hc Hm).
Qed.

Lemma X10_first_block_without_text_witness :
  fst (app (C := exact)
         (fun _ _ =>
            Returns {| content := [OtherBlock "ToolUseBlock";
                                   TextBlock "late"] |})
         (post_request Topic [("topic", JStr "AI")]) []) =
    json_response 500
      (JObj [("detail",
              JStr ("AI 분석 중 오류: " ++
                    "'" ++ "ToolUseBlock" ++
                    "' object has no attribute 'text'"))]).
Proof.
  exact (f_equal fst
           (@X10_first_block_without_text exact
              (fun _ _ =>
                 Returns {| content := [OtherBlock "ToolUseBlock";
                                        TextBlock "late"] |})
              Topic [("topic", JStr "AI")] _ []
              {| content := [OtherBlock "ToolUseBlock"; TextBlock "late"] |}
              "ToolUseBlock" [TextBlock "late"] eq_refl eq_refl eq_refl)).
Defined.


(** X12. The details of the 401 and of the 429 answers are fixed texts: the
    message of the provider's error is not disclosed in them. *)
Theorem X12_fixed_failure_details {C : Coercion} (client : provider)
  (e : endpoint) (d : dict) (prompt : string) (log : trace) (msg : string) :
  assemble e d = inr prompt ->
  (client log (request_args prompt) = Raises (AuthenticationError msg) ->
   fst (app client (post_request e d) log) =
     json_response 401 (JObj [("detail", JStr "API 키가 유효하지 않습니다")]))
  /\
  (client log (request_args prompt) = Raises (RateLimitError msg) ->
   fst (app client (post_request e d) log) =
     json_response 429
       (JObj [("detail",
               JStr "API 호출 한도 초과. 잠시 후 다시 시도해주세요")])).
Proof.
  intros Ha. split; intros Hc;
    rewrite app_post, Ha, respond_call_claude; cbn [fst];
    now rewrite (call_claude_raises client prompt log _ Hc).
Qed.

Lemma X12_fixed_failure_details_witness :
  fst (app (C := exact) (failing (RateLimitError "quota of key sk-1"))
         (post_request Topic [("topic", JStr "AI")]) []) =
    json_response 429
      (JObj [("detail",
              JStr "API 호출 한도 초과. 잠시 후 다시 시도해주세요")]).
Proof.
  exact (proj2 (@X12_fixed_failure_details exact
                  (failing (RateLimitError "quota of key sk-1"))
                  Topic [("topic", JStr "AI")] _ [] "quota of key sk-1"
                  eq_refl) eq_refl).
Defined.


(** X13. The prompts of two different endpoints never coincide: each
    template opens with a sentence of its own, so the prompt sent to the
    provider tells which stage it comes from. *)
Theorem X13_stage_determined_by_prompt {C : Coercion} (e1 e2 : endpoint)
  (d1 d2 : dict) (prompt : string) :
  assemble e1 d1 = inr prompt -> assemble e2 d2 = inr prompt -> e1 = e2.
Proof.
  intros H1 H2.
  destruct e1, e2; try reflexivity; exfalso;
    unfold assemble in H1, H2;
    apply vmap_inr in H1; destruct H1 as (r1 & _ & E1);
    apply vmap_inr in H2; destruct H2 as (r2 & _ & E2);
    rewrite E1 in E2; revert E2; unfold_prompt; simpl; discriminate.
Qed.

Lemma X13_stage_determined_by_prompt_witness : Journal = Journal.
Proof.
  exact (@X13_stage_determined_by_prompt exact Journal Journal
           [("topic", JStr "AI")] [("topic", JStr "AI")] _ eq_refl eq_refl).
Defined.
